(** * minitorch datasets: the generators of [minitorch/module.py]

    A shallow embedding of the dataset generators and of the registry
    [datasets], and the properties of them that the specification states.

    Python values are modelled as follows.
    - [int] is [Z] (unbounded); [N // 2] is [Z.div], which floors as Python
      does for a positive divisor.
    - [float] is the kernel's binary64 [float]; [+ - * /] and the
      comparisons are the IEEE 754 operations Python uses, and a decimal
      literal denotes the nearest binary64 value in both languages.
    - a [list] is a [list]; [range(a, b)] is [seqZ a (b - a)].
    - the process-wide random source is a state of an abstract type [Rng]
      threaded through the generators; [random.random()] is one step of it.
    - [math.cos] and [math.sin] are functions on [float] supplied from
      outside (the C library's), total on the finite arguments used here.
    - an exception is a value [Raise e] of [Result]. *)

From Stdlib Require Import ZArith Lia List Floats.
From stdpp Require Import base list gmap strings.

Set Warnings "-inexact-float".
Local Open Scope Z_scope.

(** ** Exceptions *)

Inductive PyExc : Type :=
  | ZeroDivisionError
  | OverflowError
  | KeyError.

Inductive Result (A : Type) : Type :=
  | Ok (a : A)
  | Raise (e : PyExc).

Arguments Ok {A} a.
Arguments Raise {A} e.

Definition rbind {A B : Type} (r : Result A) (k : A -> Result B) : Result B :=
  match r with
  | Ok a => k a
  | Raise e => Raise e
  end.

Notation "x <~ r ;; k" := (rbind r (fun x => k))
  (at level 100, r at next level, right associativity).

(** A list comprehension [[f(i) for i in l]] whose element expression can
    raise: elements are evaluated from left to right and the first exception
    ends the evaluation. *)
Fixpoint comprehension {A B : Type} (f : A -> Result B) (l : list A)
  : Result (list B) :=
  match l with
  | [] => Ok []
  | a :: l' =>
      b <~ f a ;;
      bs <~ comprehension f l' ;;
      Ok (b :: bs)
  end.

(** ** Numbers *)

(** The least magnitude of an [int] that does not convert to a [float]:
    [2^1024 - 2^970] rounds (to nearest, ties to even) to [2^1024]. *)
Definition float_limit : Z := 2 ^ 1024 - 2 ^ 970.

(** The binary64 value nearest to an integer (ties to even). *)
Definition Z2float (z : Z) : float :=
  SF2Prim (binary_normalize prec emax z 0 false).

(** [float(i)] for an [int] [i], which is also the conversion of an [int]
    operand of a [float] operation: [OverflowError] ("int too large to
    convert to float") when the rounded value is out of range. *)
Definition py_float (i : Z) : Result float :=
  if Z.abs i <? float_limit then Ok (Z2float i) else Raise OverflowError.

(** [a / b] for a [float] [a] and an [int] [b]: [b] is converted first, and
    a zero divisor raises [ZeroDivisionError]. *)
Definition py_truediv (a : float) (b : Z) : Result float :=
  fb <~ py_float b ;;
  if b =? 0 then Raise ZeroDivisionError else Ok (a / fb)%float.

(** [range(a, b)]. *)
Definition py_range (a b : Z) : list Z := seqZ a (b - a).

(** [[v] * n]: empty when [n] is not positive. *)
Definition py_repeat {A : Type} (v : A) (n : Z) : list A :=
  replicate (Z.to_nat n) v.

(** ** The data model *)

Abbreviation Point := (float * float)%type.

Module Graph.
Record t : Type := mk { N : Z; X : list Point; y : list Z }.
End Graph.

(** [d[k]] for a dict [d]: [KeyError] when the key is absent. *)
Definition py_getitem {V : Type} (d : gmap string V) (k : string) : Result V :=
  match d !! k with
  | Some v => Ok v
  | None => Raise KeyError
  end.

(** ** The generators *)

Section Generators.

Context {Rng : Type}.

(** [random.random()]: the next float of the source, and its new state. *)
Variable random : Rng -> float * Rng.

Variables cos sin : float -> float.

(** A generator takes [N] and the state of the random source, and returns
    a dataset or raises, with the state it leaves. *)
Definition generator : Type := Z -> Rng -> Result Graph.t * Rng.

(** The loop of [make_pts], [n] iterations left, appending to [X]. *)
Fixpoint make_pts_loop (n : nat) (X : list Point) (s : Rng)
  : list Point * Rng :=
  match n with
  | O => (X, s)
  | S n' =>
      let '(x_1, s1) := random s in
      let '(x_2, s2) := random s1 in
      make_pts_loop n' (X ++ [(x_1, x_2)]) s2
  end.

Definition make_pts (N : Z) (s : Rng) : list Point * Rng :=
  make_pts_loop (Z.to_nat N) [] s.

(** [y = []; for x_1, x_2 in X: y1 = ...; y.append(y1)], the body given as
    the expression of [y1]. *)
Definition for_points (y1 : float -> float -> Z) (X : list Point) : list Z :=
  fold_left (fun y p => let '(x_1, x_2) := p in y ++ [y1 x_1 x_2]) X [].

Definition simple : generator := fun N s =>
  let '(X, s') := make_pts N s in
  let y := for_points (fun x_1 x_2 =>
             if (x_1 <? 0.5)%float then 1 else 0) X in
  (Ok (Graph.mk N X y), s').

Definition diag : generator := fun N s =>
  let '(X, s') := make_pts N s in
  let y := for_points (fun x_1 x_2 =>
             if (x_1 + x_2 <? 0.5)%float then 1 else 0) X in
  (Ok (Graph.mk N X y), s').

Definition split : generator := fun N s =>
  let '(X, s') := make_pts N s in
  let y := for_points (fun x_1 x_2 =>
             if (x_1 <? 0.2)%float || (0.8 <? x_1)%float then 1 else 0) X in
  (Ok (Graph.mk N X y), s').

Definition xor : generator := fun N s =>
  let '(X, s') := make_pts N s in
  let y := for_points (fun x_1 x_2 =>
             if (x_1 <? 0.5)%float && (0.5 <? x_2)%float
                || (0.5 <? x_1)%float && (x_2 <? 0.5)%float
             then 1 else 0) X in
  (Ok (Graph.mk N X y), s').

Definition circle : generator := fun N s =>
  let '(X, s') := make_pts N s in
  let y := for_points (fun x_1 x_2 =>
             let '(x1, x2) := ((x_1 - 0.5)%float, (x_2 - 0.5)%float) in
             if (0.1 <? x1 * x1 + x2 * x2)%float then 1 else 0) X in
  (Ok (Graph.mk N X y), s').

(** The two helpers local to [spiral]. *)
Definition spiral_x (t : float) : float := (t * cos t / 20.0)%float.
Definition spiral_y (t : float) : float := (t * sin t / 20.0)%float.

(** The element expressions of the two comprehensions of [spiral]. *)
Definition spiral_elem_a (N i : Z) : Result Point :=
  fi <~ py_float i ;;
  q <~ py_truediv fi (N / 2) ;;
  let a := (spiral_x (10.0 * q) + 0.5)%float in
  fi' <~ py_float i ;;
  q' <~ py_truediv fi' (N / 2) ;;
  let b := (spiral_y (10.0 * q') + 0.5)%float in
  Ok (a, b).

Definition spiral_elem_b (N i : Z) : Result Point :=
  fi <~ py_float i ;;
  q <~ py_truediv fi (N / 2) ;;
  let a := (spiral_y (-10.0 * q) + 0.5)%float in
  fi' <~ py_float i ;;
  q' <~ py_truediv fi' (N / 2) ;;
  let b := (spiral_x (-10.0 * q') + 0.5)%float in
  Ok (a, b).

(** The body of [spiral], which does not touch the random source. *)
Definition spiral_graph (N : Z) : Result Graph.t :=
  X <~ comprehension (spiral_elem_a N) (py_range (5 + 0) (5 + N / 2)) ;;
  X2 <~ comprehension (spiral_elem_b N) (py_range (5 + 0) (5 + N / 2)) ;;
  let X := X ++ X2 in
  let y2 := py_repeat 0 (N / 2) ++ py_repeat 1 (N / 2) in
  Ok (Graph.mk N X y2).

Definition spiral : generator := fun N s => (spiral_graph N, s).

(** The shape the five uniform generators share: sample, then label each
    point with the expression [y1]. *)
Definition labelled (y1 : float -> float -> Z) : generator := fun N s =>
  let '(X, s') := make_pts N s in
  (Ok (Graph.mk N X (for_points y1 X)), s').

Definition uniform_generators : list generator :=
  [simple; diag; split; xor; circle].

Definition all_generators : list generator :=
  uniform_generators ++ [spiral].

(** The registry. *)
Definition datasets : gmap string generator :=
  list_to_map
    [("Simple", simple); ("Diag", diag); ("Split", split); ("Xor", xor);
     ("Circle", circle); ("Spiral", spiral)]%string.

End Generators.


(** ** The labeling rules as the specification words them *)

Definition label (b : bool) : Z := if b then 1 else 0.

Definition xor_rule (x1 x2 : float) : Z :=
  label ((x1 <? 0.5)%float && (0.5 <? x2)%float
         || (0.5 <? x1)%float && (x2 <? 0.5)%float).

Definition circle_rule (x1 x2 : float) : Z :=
  label (0.1 <? (x1 - 0.5) * (x1 - 0.5) + (x2 - 0.5) * (x2 - 0.5))%float.

(** A coordinate in the half-open interval [[0, 1)]. *)
Definition in_unit (x : float) : Prop :=
  (0 <=? x)%float = true /\ (x <? 1)%float = true.

(** ** Random sources to run the generators on *)

(** A source that replays a tape of values, then zeros. *)
Definition tape_random (s : list float) : float * list float :=
  match s with
  | [] => (0%float, [])
  | x :: s' => (x, s')
  end.

(** A two-state source that alternates between [0.25] and [0.75]. *)
Definition flip_random (s : bool) : float * bool :=
  ((if s then 0.75 else 0.25)%float, negb s).

(** The points of the two arms of the spiral as the specification words
    them, for the loop index [i] and [half = N // 2]. *)
Definition arm_a_point (cos sin : float -> float) (i half : Z) : Point :=
  let t := (10.0 * (Z2float i / Z2float half))%float in
  ((t * cos t / 20.0 + 0.5)%float, (t * sin t / 20.0 + 0.5)%float).

Definition arm_b_point (cos sin : float -> float) (i half : Z) : Point :=
  let t := (-10.0 * (Z2float i / Z2float half))%float in
  ((spiral_y sin t + 0.5)%float, (spiral_x cos t + 0.5)%float).

(** The dataset of [spiral] as the specification words it: the points of
    arm A for the indices from 5, then those of arm B, labelled 0 then 1. *)
Definition spiral_dataset (cos sin : float -> float) (N : Z) : Graph.t :=
  Graph.mk N
    (((fun i => arm_a_point cos sin i (N / 2)) <$> seqZ 5 (N / 2))
     ++ ((fun i => arm_b_point cos sin i (N / 2)) <$> seqZ 5 (N / 2)))
    (replicate (Z.to_nat (N / 2)) 0 ++ replicate (Z.to_nat (N / 2)) 1).

(** The keys of the registry. *)
Definition dataset_names : list string :=
  ["Simple"; "Diag"; "Split"; "Xor"; "Circle"; "Spiral"]%string.

(** Stand-ins for the C library's cosine and sine to run [spiral] on; every
    property below holds whatever the two functions are. *)
Definition probe_cos (t : float) : float := 1%float.
Definition probe_sin (t : float) : float := 0%float.

(** The labeling expressions of [simple], [diag] and [split], as their
    docstrings word them. *)
Definition simple_rule (x1 x2 : float) : Z := label (x1 <? 0.5)%float.

Definition diag_rule (x1 x2 : float) : Z := label (x1 + x2 <? 0.5)%float.

Definition split_rule (x1 x2 : float) : Z :=
  label ((x1 <? 0.2)%float || (0.8 <? x1)%float).

(** The first [n] values of a random source, in the order drawn, and the
    state the source is left in. *)
Fixpoint draws {Rng : Type} (random : Rng -> float * Rng) (n : nat) (s : Rng)
  : list float * Rng :=
  match n with
  | O => ([], s)
  | S n' =>
      let '(x, s1) := random s in
      let '(xs, s2) := draws random n' s1 in
      (x :: xs, s2)
  end.

(** The coordinates of a list of points, read point by point. *)
Definition coordinates (X : list Point) : list float :=
  X ≫= (fun p => [p.1; p.2]).

(** ** Properties of the uniform generators *)

Section UniformFacts.

Context {Rng : Type}.
Variable random : Rng -> float * Rng.

(** The labels loop appends one label per point, in order. *)
Lemma for_points_acc (y1 : float -> float -> Z) (X : list Point) (acc : list Z) :
  fold_left (fun y p => let '(x_1, x_2) := p in y ++ [y1 x_1 x_2]) X acc
  = acc ++ map (fun p => y1 p.1 p.2) X.
Proof.
  revert acc; induction X as [|[x_1 x_2] X IH]; intros acc; simpl.
  - by rewrite app_nil_r.
  - rewrite IH. by rewrite <- app_assoc.
Qed.

Lemma for_points_map (y1 : float -> float -> Z) (X : list Point) :
  for_points y1 X = map (fun p => y1 p.1 p.2) X.
Proof. unfold for_points. by rewrite for_points_acc. Qed.

(** The sampling loop keeps what was drawn before and adds [n] points. *)
Lemma make_pts_loop_app (n : nat) (X : list Point) (s : Rng) :
  exists D, (make_pts_loop random n X s).1 = X ++ D /\ length D = n.
Proof.
  revert X s; induction n as [|n IH]; intros X s; simpl.
  - exists []. by rewrite app_nil_r.
  - destruct (random s) as [x_1 s1], (random s1) as [x_2 s2].
    destruct (IH (X ++ [(x_1, x_2)]) s2) as (D & -> & HD).
    exists ((x_1, x_2) :: D). rewrite <- app_assoc. simpl. by rewrite HD.
Qed.

Lemma make_pts_length (N : Z) (s : Rng) :
  length (make_pts random N s).1 = Z.to_nat N.
Proof.
  unfold make_pts.
  destruct (make_pts_loop_app (Z.to_nat N) [] s) as (D & -> & HD). done.
Qed.

(** No iteration for a count that is not positive: nothing is drawn. *)
Lemma make_pts_nonpos (N : Z) (s : Rng) :
  N <= 0 -> make_pts random N s = ([], s).
Proof.
  intros HN. unfold make_pts.
  replace (Z.to_nat N) with O by lia. done.
Qed.

Lemma make_pts_loop_Forall (P : Point -> Prop) (n : nat) (X : list Point) (s : Rng) :
  (forall s1, let '(x_1, s2) := random s1 in
              let '(x_2, _) := random s2 in P (x_1, x_2)) ->
  Forall P X -> Forall P (make_pts_loop random n X s).1.
Proof.
  intros Hstep. revert X s; induction n as [|n IH]; intros X s HX; simpl.
  - done.
  - specialize (Hstep s).
    destruct (random s) as [x_1 s1], (random s1) as [x_2 s2].
    apply IH. apply Forall_app. split; [done|]. by constructor.
Qed.

Lemma labelled_shape (y1 : float -> float -> Z) (N : Z) (s : Rng) :
  exists g s', labelled random y1 N s = (Ok g, s')
    /\ Graph.N g = N
    /\ length (Graph.X g) = Z.to_nat N
    /\ Graph.y g = map (fun p => y1 p.1 p.2) (Graph.X g)
    /\ Graph.X g = (make_pts random N s).1.
Proof.
  unfold labelled. pose proof (make_pts_length N s) as HL.
  destruct (make_pts random N s) as [X s']. simpl in HL.
  eexists _, _. split; [reflexivity|]. simpl.
  split_and!; try done. apply for_points_map.
Qed.

Lemma uniform_generator_labelled (gen : generator) :
  gen ∈ uniform_generators random ->
  exists y1, gen = labelled random y1
             /\ forall x1 x2, y1 x1 x2 = 0 \/ y1 x1 x2 = 1.
Proof.
  unfold uniform_generators. intros Hgen.
  repeat (apply elem_of_cons in Hgen as [-> | Hgen]);
    [ | | | | | by apply elem_of_nil in Hgen ];
    (eexists; split; [reflexivity|]); intros x1 x2; simpl;
    repeat case_match; auto.
Qed.

Lemma labelled_labels (y1 : float -> float -> Z) (N : Z) (s : Rng) :
  exists g s', labelled random y1 N s = (Ok g, s')
    /\ forall (i : nat) (x1 x2 : float),
         Graph.X g !! i = Some (x1, x2) -> Graph.y g !! i = Some (y1 x1 x2).
Proof.
  destruct (labelled_shape y1 N s) as (g & s' & Heq & _ & _ & Hy & _).
  exists g, s'. split; [done|]. intros i x1 x2 Hi.
  rewrite Hy, list_lookup_fmap, Hi. done.
Qed.

(** C1: for each of simple, diag, split, xor and circle and every N >= 0,
    the generator returns a Graph whose field N is the requested N, whose
    X and y both have N elements, and whose labels are all 0 or 1. *)
Theorem uniform_generators_shape (gen : generator) (N : Z) (s : Rng) :
  gen ∈ uniform_generators random -> 0 <= N ->
  exists g s', gen N s = (Ok g, s')
    /\ Graph.N g = N
    /\ Z.of_nat (length (Graph.X g)) = N
    /\ Z.of_nat (length (Graph.y g)) = N
    /\ Forall (fun l => l = 0 \/ l = 1) (Graph.y g).
Proof.
  intros Hgen HN.
  destruct (uniform_generator_labelled gen Hgen) as (y1 & -> & Hbin).
  destruct (labelled_shape y1 N s) as (g & s' & Heq & HgN & HX & Hy & _).
  exists g, s'. split_and!; try done.
  - lia.
  - rewrite Hy, length_map. lia.
  - rewrite Hy. apply Forall_forall. intros l Hl.
    apply list_elem_of_fmap in Hl as ([x1 x2] & -> & _). apply Hbin.
Qed.

(** C9: when the random source yields values in [0, 1), as
    random.random() does, every coordinate of every point of a dataset
    returned by simple, diag, split, xor or circle, for any N >= 0, lies
    in [0, 1). *)
Theorem uniform_points_in_unit (gen : generator) (N : Z) (s : Rng) :
  (forall s0, in_unit (random s0).1) ->
  gen ∈ uniform_generators random -> 0 <= N ->
  exists g s', gen N s = (Ok g, s')
    /\ Forall (fun p => in_unit p.1 /\ in_unit p.2) (Graph.X g).
Proof.
  intros Hunit Hgen HN.
  destruct (uniform_generator_labelled gen Hgen) as (y1 & -> & _).
  destruct (labelled_shape y1 N s) as (g & s' & Heq & _ & _ & _ & HX).
  exists g, s'. split; [done|]. rewrite HX. unfold make_pts.
  apply make_pts_loop_Forall; [|constructor].
  intros s1. pose proof (Hunit s1) as H1.
  destruct (random s1) as [x_1 s2]. pose proof (Hunit s2) as H2.
  destruct (random s2) as [x_2 s3]. done.
Qed.

(** C4: in a dataset returned by circle, the label of a point (x1, x2) is
    1 when (x1-0.5)^2 + (x2-0.5)^2 > 0.1 and 0 otherwise; a point at the
    centre (0.5, 0.5) is labelled 0 and a point at (0.0, 0.0) is
    labelled 1. *)
Theorem circle_labels (N : Z) (s : Rng) :
  exists g s', circle random N s = (Ok g, s')
    /\ (forall (i : nat) (x1 x2 : float),
          Graph.X g !! i = Some (x1, x2) ->
          Graph.y g !! i = Some (circle_rule x1 x2))
    /\ (forall i : nat,
          Graph.X g !! i = Some (0.5, 0.5)%float -> Graph.y g !! i = Some 0)
    /\ (forall i : nat,
          Graph.X g !! i = Some (0.0, 0.0)%float -> Graph.y g !! i = Some 1).
Proof.
  destruct (labelled_labels
              (fun x_1 x_2 =>
                 let '(x1, x2) := ((x_1 - 0.5)%float, (x_2 - 0.5)%float) in
                 if (0.1 <? x1 * x1 + x2 * x2)%float then 1 else 0) N s)
    as (g & s' & Heq & Hl).
  exists g, s'. split; [exact Heq|].
  assert (Hrule : forall (i : nat) (x1 x2 : float),
             Graph.X g !! i = Some (x1, x2) ->
             Graph.y g !! i = Some (circle_rule x1 x2)).
  { intros i x1 x2 Hi. rewrite (Hl i x1 x2 Hi). reflexivity. }
  split_and!; [exact Hrule| |]; intros i Hi; rewrite (Hrule _ _ _ Hi);
    reflexivity.
Qed.

(** C5: in a dataset returned by xor, the label of a point (x1, x2) is 1
    when (x1 < 0.5 and x2 > 0.5) or (x1 > 0.5 and x2 < 0.5), and 0
    otherwise; a point at (0.2, 0.8) is labelled 1 and a point at
    (0.2, 0.2) is labelled 0. *)
Theorem xor_labels (N : Z) (s : Rng) :
  exists g s', xor random N s = (Ok g, s')
    /\ (forall (i : nat) (x1 x2 : float),
          Graph.X g !! i = Some (x1, x2) ->
          Graph.y g !! i = Some (xor_rule x1 x2))
    /\ (forall i : nat,
          Graph.X g !! i = Some (0.2, 0.8)%float -> Graph.y g !! i = Some 1)
    /\ (forall i : nat,
          Graph.X g !! i = Some (0.2, 0.2)%float -> Graph.y g !! i = Some 0).
Proof.
  destruct (labelled_labels
              (fun x_1 x_2 =>
                 if (x_1 <? 0.5)%float && (0.5 <? x_2)%float
                    || (0.5 <? x_1)%float && (x_2 <? 0.5)%float
                 then 1 else 0) N s)
    as (g & s' & Heq & Hl).
  exists g, s'. split; [exact Heq|].
  assert (Hrule : forall (i : nat) (x1 x2 : float),
             Graph.X g !! i = Some (x1, x2) ->
             Graph.y g !! i = Some (xor_rule x1 x2)).
  { intros i x1 x2 Hi. rewrite (Hl i x1 x2 Hi). reflexivity. }
  split_and!; [exact Hrule| |]; intros i Hi; rewrite (Hrule _ _ _ Hi);
    reflexivity.
Qed.

End UniformFacts.

(** ** Conversions and comprehensions *)

(** Closed comparisons of integers, decided by evaluation. *)
Ltac by_computation :=
  vm_compute; first [reflexivity | let H := fresh in intros H; discriminate H].

Lemma float_limit_gt_9 : 9 < float_limit.
Proof. by_computation. Qed.

(** The limit is where rounding to nearest first leaves the finite floats. *)
Lemma float_limit_sharp :
  Z2float (float_limit - 1) = 0x1.fffffffffffffp+1023%float
  /\ Z2float float_limit = infinity
  /\ Z2float (- (float_limit - 1)) = (-0x1.fffffffffffffp+1023)%float
  /\ Z2float (- float_limit) = neg_infinity.
Proof. repeat split; by_computation. Qed.

Lemma py_float_ok (i : Z) :
  Z.abs i < float_limit -> py_float i = Ok (Z2float i).
Proof.
  intros Hi. unfold py_float.
  destruct (Z.ltb_spec (Z.abs i) float_limit); [done | lia].
Qed.

Lemma py_float_overflow (i : Z) :
  float_limit <= Z.abs i -> py_float i = Raise OverflowError.
Proof.
  intros Hi. unfold py_float.
  destruct (Z.ltb_spec (Z.abs i) float_limit); [lia | done].
Qed.

Lemma py_truediv_ok (a : float) (b : Z) :
  b <> 0 -> Z.abs b < float_limit ->
  py_truediv a b = Ok (a / Z2float b)%float.
Proof.
  intros Hb Hlim. unfold py_truediv. rewrite (py_float_ok b Hlim). simpl.
  destruct (Z.eqb_spec b 0); [lia | done].
Qed.

Lemma py_truediv_raises (a : float) (b : Z) (e : PyExc) :
  b <> 0 -> py_truediv a b = Raise e -> e = OverflowError.
Proof.
  intros Hb. unfold py_truediv, py_float.
  destruct (Z.abs b <? float_limit); simpl.
  - destruct (Z.eqb_spec b 0); [lia | done].
  - congruence.
Qed.

Lemma py_range_from_5 (half : Z) : py_range (5 + 0) (5 + half) = seqZ 5 half.
Proof. unfold py_range. f_equal; lia. Qed.

Lemma comprehension_ok {A B : Type} (f : A -> Result B) (g : A -> B) (l : list A) :
  (forall a, a ∈ l -> f a = Ok (g a)) -> comprehension f l = Ok (g <$> l).
Proof.
  induction l as [|a l IH]; intros Hf; simpl; [done|].
  rewrite (Hf a) by apply list_elem_of_here. simpl.
  rewrite IH; [done|]. intros a' Ha'. apply Hf. by apply list_elem_of_further.
Qed.

Lemma comprehension_raise {A B : Type} (f : A -> Result B) (l : list A) (e : PyExc) :
  comprehension f l = Raise e -> exists a, a ∈ l /\ f a = Raise e.
Proof.
  induction l as [|a l IH]; simpl; [done|].
  destruct (f a) as [b|e'] eqn:Hfa; simpl.
  - destruct (comprehension f l) as [bs|e'']; simpl; [done|].
    intros [= ->]. destruct IH as (a' & Ha' & Hfa'); [done|].
    exists a'. split; [by apply list_elem_of_further | done].
  - intros [= ->]. exists a. split; [apply list_elem_of_here | done].
Qed.

(** ** Properties of the spiral generator *)

Section SpiralFacts.

Context {Rng : Type}.
Variables cos sin : float -> float.

Lemma spiral_elem_a_ok (N i : Z) :
  N / 2 <> 0 -> Z.abs (N / 2) < float_limit -> Z.abs i < float_limit ->
  spiral_elem_a cos sin N i = Ok (arm_a_point cos sin i (N / 2)).
Proof.
  intros Hnz Hhalf Hi. unfold spiral_elem_a.
  rewrite (py_float_ok i Hi). cbn [rbind].
  rewrite (py_truediv_ok _ _ Hnz Hhalf). reflexivity.
Qed.

Lemma spiral_elem_b_ok (N i : Z) :
  N / 2 <> 0 -> Z.abs (N / 2) < float_limit -> Z.abs i < float_limit ->
  spiral_elem_b cos sin N i = Ok (arm_b_point cos sin i (N / 2)).
Proof.
  intros Hnz Hhalf Hi. unfold spiral_elem_b.
  rewrite (py_float_ok i Hi). cbn [rbind].
  rewrite (py_truediv_ok _ _ Hnz Hhalf). reflexivity.
Qed.

Lemma spiral_graph_ok (N : Z) :
  N / 2 <= 0 \/ N / 2 + 4 < float_limit ->
  spiral_graph cos sin N = Ok (spiral_dataset cos sin N).
Proof.
  intros Hb. unfold spiral_graph. rewrite py_range_from_5.
  assert (Hin : forall i, i ∈ seqZ 5 (N / 2) ->
            N / 2 <> 0 /\ Z.abs (N / 2) < float_limit
            /\ Z.abs i < float_limit).
  { intros i Hi. apply elem_of_seqZ in Hi. lia. }
  rewrite (comprehension_ok _ (fun i => arm_a_point cos sin i (N / 2))).
  2: { intros i Hi. destruct (Hin i Hi) as (? & ? & ?).
       by apply spiral_elem_a_ok. }
  cbn [rbind].
  rewrite (comprehension_ok _ (fun i => arm_b_point cos sin i (N / 2))).
  2: { intros i Hi. destruct (Hin i Hi) as (? & ? & ?).
       by apply spiral_elem_b_ok. }
  reflexivity.
Qed.

(** A divisor too large for a float stops [spiral] at the first point. *)
Lemma spiral_graph_overflow (N : Z) :
  float_limit <= N / 2 -> spiral_graph cos sin N = Raise OverflowError.
Proof.
  intros Hb. pose proof float_limit_gt_9 as H9.
  unfold spiral_graph. rewrite py_range_from_5, seqZ_cons by lia.
  cbn [comprehension]. unfold spiral_elem_a at 1.
  rewrite (py_float_ok 5) by (simpl; lia). cbn [rbind].
  unfold py_truediv. rewrite py_float_overflow by lia. reflexivity.
Qed.

Lemma spiral_elem_a_raises (N i : Z) (e : PyExc) :
  N / 2 <> 0 -> spiral_elem_a cos sin N i = Raise e -> e = OverflowError.
Proof.
  intros Hnz. unfold spiral_elem_a.
  destruct (py_float i) as [fi|e'] eqn:Hfi; cbn [rbind].
  - destruct (py_truediv fi (N / 2)) as [q|e''] eqn:Hq; cbn [rbind]; [done|].
    intros [= ->]. by eapply py_truediv_raises.
  - intros [= ->]. unfold py_float in Hfi.
    destruct (Z.abs i <? float_limit); congruence.
Qed.

Lemma spiral_elem_b_raises (N i : Z) (e : PyExc) :
  N / 2 <> 0 -> spiral_elem_b cos sin N i = Raise e -> e = OverflowError.
Proof.
  intros Hnz. unfold spiral_elem_b.
  destruct (py_float i) as [fi|e'] eqn:Hfi; cbn [rbind].
  - destruct (py_truediv fi (N / 2)) as [q|e''] eqn:Hq; cbn [rbind]; [done|].
    intros [= ->]. by eapply py_truediv_raises.
  - intros [= ->]. unfold py_float in Hfi.
    destruct (Z.abs i <? float_limit); congruence.
Qed.

(** The only exception [spiral] can raise is [OverflowError]. *)
Lemma spiral_graph_raises (N : Z) (e : PyExc) :
  spiral_graph cos sin N = Raise e -> e = OverflowError.
Proof.
  unfold spiral_graph. rewrite py_range_from_5.
  destruct (comprehension (spiral_elem_a cos sin N) _) as [X|e1] eqn:HA;
    cbn [rbind].
  - destruct (comprehension (spiral_elem_b cos sin N) _) as [X2|e2] eqn:HB;
      cbn [rbind]; [done|].
    intros [= ->]. apply comprehension_raise in HB as (i & Hi & Hraise).
    apply elem_of_seqZ in Hi. eapply spiral_elem_b_raises; [|done]. lia.
  - intros [= ->]. apply comprehension_raise in HA as (i & Hi & Hraise).
    apply elem_of_seqZ in Hi. eapply spiral_elem_a_raises; [|done]. lia.
Qed.

Lemma spiral_dataset_lengths (N : Z) :
  0 <= N ->
  Z.of_nat (length (Graph.X (spiral_dataset cos sin N))) = 2 * (N / 2)
  /\ Z.of_nat (length (Graph.y (spiral_dataset cos sin N))) = 2 * (N / 2).
Proof.
  intros HN. assert (0 <= N / 2) by (apply Z.div_pos; lia).
  unfold spiral_dataset; simpl.
  rewrite !length_app, !length_fmap, !length_seqZ, !length_replicate. lia.
Qed.

Lemma spiral_dataset_nonpos (N : Z) :
  N / 2 <= 0 -> spiral_dataset cos sin N = Graph.mk N [] [].
Proof.
  intros Hh. unfold spiral_dataset. rewrite seqZ_nil by done.
  replace (Z.to_nat (N / 2)) with O by lia. reflexivity.
Qed.

Lemma odd_halves (N : Z) : Z.odd N = true -> 2 * (N / 2) = N - 1.
Proof.
  intros Hodd. pose proof (Z.div_mod N 2) as Hdm.
  rewrite Zmod_odd, Hodd in Hdm. lia.
Qed.

(** C3: for every N >= 0 whose half N//2 leaves the int-to-float
    conversions in range (N//2 + 4 < 2^1024 - 2^970), spiral(N) returns
    point and label sequences of length 2*(N//2): the N//2 points of arm A,
    labelled 0, then the N//2 points of arm B, labelled 1. For N = 10 the
    length is 10 with five labels 0 then five labels 1, and for odd N
    there is one point fewer than requested. *)
Theorem spiral_shape (N : Z) (s : Rng) :
  0 <= N -> N / 2 + 4 < float_limit ->
  exists g, spiral cos sin N s = (Ok g, s)
    /\ Z.of_nat (length (Graph.X g)) = 2 * (N / 2)
    /\ Z.of_nat (length (Graph.y g)) = 2 * (N / 2)
    /\ (exists A B : list Point,
          Graph.X g = A ++ B
          /\ A = (fun i => arm_a_point cos sin i (N / 2)) <$> seqZ 5 (N / 2)
          /\ B = (fun i => arm_b_point cos sin i (N / 2)) <$> seqZ 5 (N / 2)
          /\ Z.of_nat (length A) = N / 2 /\ Z.of_nat (length B) = N / 2)
    /\ Graph.y g
       = replicate (Z.to_nat (N / 2)) 0 ++ replicate (Z.to_nat (N / 2)) 1
    /\ (Z.odd N = true -> Z.of_nat (length (Graph.X g)) = N - 1)
    /\ (N = 10 ->
        length (Graph.X g) = 10%nat
        /\ take 5 (Graph.y g) = [0; 0; 0; 0; 0]
        /\ drop 5 (Graph.y g) = [1; 1; 1; 1; 1]).
Proof.
  intros HN Hb. assert (Hh : 0 <= N / 2) by (apply Z.div_pos; lia).
  destruct (spiral_dataset_lengths N HN) as [HX Hy].
  exists (spiral_dataset cos sin N). unfold spiral.
  rewrite spiral_graph_ok by (by right).
  split_and!; try done.
  - eexists _, _. split_and!; try reflexivity;
      rewrite length_fmap, length_seqZ; lia.
  - intros Hodd. rewrite HX. by apply odd_halves.
  - intros ->. change (10 / 2) with 5 in *. split; [lia|].
    split; reflexivity.
Qed.

(** C6: for every N with half = N//2 >= 1 that leaves the conversions in
    range (half + 4 < 2^1024 - 2^970), in spiral(N) the arm-A point for the
    index i of [5, 5+half) is (t*cos(t)/20 + 0.5, t*sin(t)/20 + 0.5) with
    t = 10*(i/half), and the arm-B point for the same i is
    (y(t)+0.5, x(t)+0.5) with t = -10*(i/half), x and y being the two
    helpers; they stand at the positions i-5 and half+(i-5) of X. *)
Theorem spiral_points (N : Z) (s : Rng) :
  1 <= N / 2 -> N / 2 + 4 < float_limit ->
  exists g, spiral cos sin N s = (Ok g, s)
    /\ forall i : Z, 5 <= i < 5 + N / 2 ->
         Graph.X g !! Z.to_nat (i - 5)
         = Some (arm_a_point cos sin i (N / 2))
         /\ Graph.X g !! Z.to_nat (N / 2 + (i - 5))
            = Some (arm_b_point cos sin i (N / 2)).
Proof.
  intros Hh Hb. exists (spiral_dataset cos sin N). unfold spiral.
  rewrite spiral_graph_ok by (by right). split; [done|].
  intros i Hi. unfold spiral_dataset; simpl. split.
  - rewrite lookup_app_l by (rewrite length_fmap, length_seqZ; lia).
    rewrite list_lookup_fmap, lookup_seqZ_lt by lia. simpl.
    do 2 f_equal. lia.
  - rewrite lookup_app_r by (rewrite length_fmap, length_seqZ; lia).
    rewrite length_fmap, length_seqZ.
    rewrite list_lookup_fmap, lookup_seqZ_lt by lia. simpl.
    do 2 f_equal. lia.
Qed.

(** C10: for every N >= 0 that leaves the conversions in range
    (N//2 + 4 < 2^1024 - 2^970), the Graph returned by spiral(N) has the
    requested N in its field N; for odd N the point and label lists have
    2*(N//2) = N-1 elements, so that the field exceeds the number of
    points by one. *)
Theorem spiral_count (N : Z) (s : Rng) :
  0 <= N -> N / 2 + 4 < float_limit ->
  exists g, spiral cos sin N s = (Ok g, s)
    /\ Graph.N g = N
    /\ (Z.odd N = true ->
        Z.of_nat (length (Graph.X g)) = N - 1
        /\ Z.of_nat (length (Graph.y g)) = N - 1
        /\ Graph.N g = Z.of_nat (length (Graph.X g)) + 1).
Proof.
  intros HN Hb. destruct (spiral_dataset_lengths N HN) as [HX Hy].
  exists (spiral_dataset cos sin N). unfold spiral.
  rewrite spiral_graph_ok by (by right). split_and!; try done.
  intros Hodd. apply odd_halves in Hodd.
  change (Graph.N (spiral_dataset cos sin N)) with N. lia.
Qed.

End SpiralFacts.

(** ** Properties of all six generators and of the registry *)

Section RegistryFacts.

Context {Rng : Type}.
Variable random : Rng -> float * Rng.
Variables cos sin : float -> float.

Lemma all_generators_cases (gen : generator) :
  gen ∈ all_generators random cos sin ->
  gen ∈ uniform_generators random \/ gen = spiral cos sin.
Proof.
  unfold all_generators. intros Hgen.
  apply elem_of_app in Hgen as [Hgen | Hgen]; [by left | right].
  by apply list_elem_of_singleton in Hgen.
Qed.

(** C2: for every negative N, each of the six generators returns, without
    raising, the Graph with that N and no point and no label, and leaves
    the random source as it was; make_pts returns the empty list. *)
Theorem negative_count_returns_empty (gen : generator) (N : Z) (s : Rng) :
  gen ∈ all_generators random cos sin -> N < 0 ->
  gen N s = (Ok (Graph.mk N [] []), s)
  /\ make_pts random N s = ([], s).
Proof.
  intros Hgen HN. split; [|apply make_pts_nonpos; lia].
  apply all_generators_cases in Hgen as [Hgen | ->].
  - destruct (uniform_generator_labelled random gen Hgen) as (y1 & -> & _).
    unfold labelled. rewrite make_pts_nonpos by lia. reflexivity.
  - assert (N / 2 < 0) by (apply Z.div_lt_upper_bound; lia).
    unfold spiral. rewrite spiral_graph_ok by (left; lia).
    rewrite spiral_dataset_nonpos by lia. reflexivity.
Qed.

(** C8: for every N >= 0 that leaves the int-to-float conversions of
    spiral in range (N//2 + 4 < 2^1024 - 2^970), each of the six
    generators returns a Graph and raises nothing; spiral(N) divides by
    zero for no N at all, and for N = 0 and N = 1, where N//2 is 0, the
    comprehensions range over the empty [5, 5) and the dataset is empty. *)
Theorem generators_raise_nothing :
  (forall (gen : generator) (N : Z) (s : Rng),
      gen ∈ all_generators random cos sin ->
      0 <= N -> N / 2 + 4 < float_limit ->
      exists g s', gen N s = (Ok g, s'))
  /\ (forall (N : Z) (s : Rng),
        (spiral cos sin N s).1 <> Raise ZeroDivisionError)
  /\ (forall (N : Z) (s : Rng),
        N = 0 \/ N = 1 ->
        py_range (5 + 0) (5 + N / 2) = []
        /\ spiral cos sin N s = (Ok (Graph.mk N [] []), s)).
Proof.
  split_and!.
  - intros gen N s Hgen HN Hb.
    apply all_generators_cases in Hgen as [Hgen | ->].
    + destruct (uniform_generator_labelled random gen Hgen) as (y1 & -> & _).
      destruct (labelled_shape random y1 N s) as (g & s' & Heq & _).
      by exists g, s'.
    + exists (spiral_dataset cos sin N), s. unfold spiral.
      by rewrite spiral_graph_ok by (by right).
  - intros N s Hraise. unfold spiral in Hraise. simpl in Hraise.
    by apply spiral_graph_raises in Hraise.
  - intros N s [-> | ->]; split; reflexivity.
Qed.

(** C7: the registry has exactly the keys "Simple", "Diag", "Split", "Xor",
    "Circle" and "Spiral", each mapped to its generator; looking up "Xor"
    yields the xor generator itself, and looking up a key that is none of
    the six, such as "Unknown", raises KeyError. *)
Theorem datasets_registry :
  dom (datasets random cos sin) = list_to_set dataset_names
  /\ (datasets random cos sin !! "Simple"%string = Some (simple random)
      /\ datasets random cos sin !! "Diag"%string = Some (diag random)
      /\ datasets random cos sin !! "Split"%string = Some (split random)
      /\ datasets random cos sin !! "Xor"%string = Some (xor random)
      /\ datasets random cos sin !! "Circle"%string = Some (circle random)
      /\ datasets random cos sin !! "Spiral"%string = Some (spiral cos sin))
  /\ py_getitem (datasets random cos sin) "Xor" = Ok (xor random)
  /\ (forall k : string,
        k ∉ dataset_names ->
        py_getitem (datasets random cos sin) k = Raise KeyError)
  /\ py_getitem (datasets random cos sin) "Unknown" = Raise KeyError.
Proof.
  split_and!; try reflexivity.
  intros k Hk. unfold py_getitem, datasets.
  rewrite (proj1 (not_elem_of_list_to_map _ k)); [done|]. exact Hk.
Qed.

End RegistryFacts.

(** ** The theorems at concrete inputs *)

Lemma uniform_generators_shape_witness :
  0 <= 2
  /\ exists g s',
       xor tape_random 2 [0.2; 0.8; 0.2; 0.2]%float = (Ok g, s')
       /\ Graph.N g = 2
       /\ Z.of_nat (length (Graph.X g)) = 2
       /\ Z.of_nat (length (Graph.y g)) = 2
       /\ Forall (fun l => l = 0 \/ l = 1) (Graph.y g).
Proof.
  split; [lia|].
  apply (uniform_generators_shape tape_random (xor tape_random) 2).
  - unfold uniform_generators.
    do 3 apply list_elem_of_further. apply list_elem_of_here.
  - lia.
Defined.

Lemma uniform_points_in_unit_witness :
  (forall s0, in_unit (flip_random s0).1)
  /\ exists g s',
       circle flip_random 3 false = (Ok g, s')
       /\ Forall (fun p => in_unit p.1 /\ in_unit p.2) (Graph.X g).
Proof.
  assert (Hunit : forall s0, in_unit (flip_random s0).1).
  { intros [|]; split; reflexivity. }
  split; [exact Hunit|].
  apply (uniform_points_in_unit flip_random (circle flip_random) 3 false Hunit).
  - unfold uniform_generators.
    do 4 apply list_elem_of_further. apply list_elem_of_here.
  - lia.
Defined.

Lemma circle_labels_witness :
  exists g s',
    circle tape_random 2 [0.5; 0.5; 0.0; 0.0]%float = (Ok g, s')
    /\ Graph.X g = [(0.5, 0.5); (0.0, 0.0)]%float
    /\ Graph.y g = [0; 1].
Proof.
  destruct (circle_labels tape_random 2 [0.5; 0.5; 0.0; 0.0]%float)
    as (g & s' & Heq & _ & Hcentre & Horigin).
  exists g, s'. split; [exact Heq|].
  assert (HX : Graph.X g = [(0.5, 0.5); (0.0, 0.0)]%float
               /\ length (Graph.y g) = 2%nat).
  { vm_compute in Heq. injection Heq as Hg _. subst g. split; reflexivity. }
  destruct HX as [HX Hlen]. split; [exact HX|].
  specialize (Hcentre 0%nat). specialize (Horigin 1%nat).
  rewrite HX in Hcentre, Horigin.
  specialize (Hcentre eq_refl). specialize (Horigin eq_refl).
  destruct (Graph.y g) as [|l0 [|l1 [|l2 y]]]; try discriminate Hlen.
  simpl in Hcentre, Horigin. congruence.
Defined.

Lemma xor_labels_witness :
  exists g s',
    xor tape_random 2 [0.2; 0.8; 0.2; 0.2]%float = (Ok g, s')
    /\ Graph.X g = [(0.2, 0.8); (0.2, 0.2)]%float
    /\ Graph.y g = [1; 0].
Proof.
  destruct (xor_labels tape_random 2 [0.2; 0.8; 0.2; 0.2]%float)
    as (g & s' & Heq & _ & Hopp & Hsame).
  exists g, s'. split; [exact Heq|].
  assert (HX : Graph.X g = [(0.2, 0.8); (0.2, 0.2)]%float
               /\ length (Graph.y g) = 2%nat).
  { vm_compute in Heq. injection Heq as Hg _. subst g. split; reflexivity. }
  destruct HX as [HX Hlen]. split; [exact HX|].
  specialize (Hopp 0%nat). specialize (Hsame 1%nat).
  rewrite HX in Hopp, Hsame.
  specialize (Hopp eq_refl). specialize (Hsame eq_refl).
  destruct (Graph.y g) as [|l0 [|l1 [|l2 y]]]; try discriminate Hlen.
  simpl in Hopp, Hsame. congruence.
Defined.

Lemma negative_count_returns_empty_witness :
  -3 < 0
  /\ diag tape_random (-3) [0.3; 0.7]%float
     = (Ok (Graph.mk (-3) [] []), [0.3; 0.7]%float)
  /\ make_pts tape_random (-3) [0.3; 0.7]%float = ([], [0.3; 0.7]%float).
Proof.
  split; [lia|].
  apply (negative_count_returns_empty tape_random probe_cos probe_sin
           (diag tape_random) (-3) [0.3; 0.7]%float).
  - unfold all_generators, uniform_generators. simpl.
    apply list_elem_of_further, list_elem_of_here.
  - lia.
Defined.

(** A negative count is no error: the generator returns an empty dataset
    and draws nothing. *)
Lemma negative_count_no_error :
  simple tape_random (-1) [0.3; 0.7]%float
  = (Ok (Graph.mk (-1) [] []), [0.3; 0.7]%float)
  /\ make_pts tape_random (-1) [0.3; 0.7]%float = ([], [0.3; 0.7]%float).
Proof. split; reflexivity. Qed.

Lemma spiral_shape_witness :
  0 <= 11 /\ 11 / 2 + 4 < float_limit
  /\ exists g,
       spiral probe_cos probe_sin 11 () = (Ok g, ())
       /\ Z.of_nat (length (Graph.X g)) = 10
       /\ Graph.y g = [0; 0; 0; 0; 0; 1; 1; 1; 1; 1].
Proof.
  assert (Hb : 11 / 2 + 4 < float_limit) by (by_computation).
  split; [lia|]. split; [exact Hb|].
  destruct (spiral_shape probe_cos probe_sin 11 () ltac:(lia) Hb)
    as (g & Heq & _ & _ & _ & Hy & Hodd & _).
  exists g. split; [exact Heq|]. split.
  - apply Hodd. reflexivity.
  - rewrite Hy. reflexivity.
Defined.

(** The least N at which [spiral] raises: N // 2 is the conversion limit. *)
Lemma spiral_shape_fails_large :
  0 <= 2 * float_limit
  /\ spiral probe_cos probe_sin (2 * float_limit) ()
     = (Raise OverflowError, ()).
Proof.
  split; [by_computation|].
  unfold spiral. rewrite spiral_graph_overflow; [done|].
  rewrite Z.mul_comm, Z.div_mul by done. lia.
Qed.

Lemma spiral_points_witness :
  1 <= 4 / 2 /\ 4 / 2 + 4 < float_limit
  /\ exists g,
       spiral probe_cos probe_sin 4 () = (Ok g, ())
       /\ Graph.X g !! 1%nat = Some (arm_a_point probe_cos probe_sin 6 2)
       /\ Graph.X g !! 3%nat = Some (arm_b_point probe_cos probe_sin 6 2).
Proof.
  assert (Hh : 1 <= 4 / 2) by (by_computation).
  assert (Hb : 4 / 2 + 4 < float_limit) by (by_computation).
  split; [exact Hh|]. split; [exact Hb|].
  destruct (spiral_points probe_cos probe_sin 4 () Hh Hb) as (g & Heq & Hpts).
  exists g. split; [exact Heq|].
  apply (Hpts 6). split; by_computation.
Defined.

Lemma spiral_points_fails_large :
  1 <= 2 ^ 1025 / 2
  /\ spiral probe_cos probe_sin (2 ^ 1025) () = (Raise OverflowError, ()).
Proof.
  split; [by_computation|].
  unfold spiral. rewrite spiral_graph_overflow; [done|].
  by_computation.
Qed.

Lemma spiral_count_witness :
  0 <= 7 /\ 7 / 2 + 4 < float_limit
  /\ exists g,
       spiral probe_cos probe_sin 7 () = (Ok g, ())
       /\ Graph.N g = 7
       /\ Z.of_nat (length (Graph.X g)) = 6.
Proof.
  assert (Hb : 7 / 2 + 4 < float_limit) by (by_computation).
  split; [lia|]. split; [exact Hb|].
  destruct (spiral_count probe_cos probe_sin 7 () ltac:(lia) Hb)
    as (g & Heq & HN & Hodd).
  exists g. split; [exact Heq|]. split; [exact HN|].
  destruct (Hodd eq_refl) as (HX & _). exact HX.
Defined.

Lemma spiral_count_fails_large :
  0 <= 2 ^ 1025 + 1 /\ Z.odd (2 ^ 1025 + 1) = true
  /\ spiral probe_cos probe_sin (2 ^ 1025 + 1) ()
     = (Raise OverflowError, ()).
Proof.
  split; [by_computation|]. split; [by_computation|].
  unfold spiral. rewrite spiral_graph_overflow; [done|].
  by_computation.
Qed.

Lemma generators_raise_nothing_witness :
  (exists g s', spiral probe_cos probe_sin 1 [0.3]%float = (Ok g, s'))
  /\ (exists g s', simple tape_random 1 [0.3]%float = (Ok g, s')).
Proof.
  destruct (generators_raise_nothing tape_random probe_cos probe_sin)
    as (Hret & _ & _).
  split.
  - apply Hret.
    + unfold all_generators, uniform_generators. simpl.
      do 5 apply list_elem_of_further. apply list_elem_of_here.
    + lia.
    + by_computation.
  - apply Hret.
    + unfold all_generators, uniform_generators. simpl.
      apply list_elem_of_here.
    + lia.
    + by_computation.
Defined.

Lemma generators_raise_overflow :
  0 <= 2 ^ 2000
  /\ spiral probe_cos probe_sin (2 ^ 2000) [0.3]%float
     = (Raise OverflowError, [0.3]%float).
Proof.
  split; [by_computation|].
  unfold spiral. rewrite spiral_graph_overflow; [done|].
  by_computation.
Qed.

Lemma datasets_registry_witness :
  py_getitem (datasets tape_random probe_cos probe_sin) "simple"
  = Raise KeyError.
Proof.
  destruct (datasets_registry tape_random probe_cos probe_sin)
    as (_ & _ & _ & Hmissing & _).
  apply Hmissing. unfold dataset_names. intros Hin.
  repeat (apply elem_of_cons in Hin as [Hin | Hin]; [discriminate Hin|]).
  by apply elem_of_nil in Hin.
Defined.


(** ** Further properties of the uniform generators *)

Section LabelFacts.

Context {Rng : Type}.
Variable random : Rng -> float * Rng.

(** X1: in a dataset returned by simple, the label of a point is 1 when
    x_1 < 0.5 and 0 otherwise, whatever x_2 is; a point with x_1 = 0.3 is
    labelled 1, one with x_1 = 0.7 is labelled 0, and a point on the
    boundary x_1 = 0.5 is labelled 0. *)
Theorem simple_labels (N : Z) (s : Rng) :
  exists g s', simple random N s = (Ok g, s')
    /\ (forall (i : nat) (x1 x2 : float),
          Graph.X g !! i = Some (x1, x2) ->
          Graph.y g !! i = Some (simple_rule x1 x2))
    /\ (forall (i : nat) (x2 : float),
          Graph.X g !! i = Some (0.3, x2)%float -> Graph.y g !! i = Some 1)
    /\ (forall (i : nat) (x2 : float),
          Graph.X g !! i = Some (0.7, x2)%float -> Graph.y g !! i = Some 0)
    /\ (forall (i : nat) (x2 : float),
          Graph.X g !! i = Some (0.5, x2)%float -> Graph.y g !! i = Some 0).
Proof.
  destruct (labelled_labels random
              (fun x_1 x_2 => if (x_1 <? 0.5)%float then 1 else 0) N s)
    as (g & s' & Heq & Hl).
  exists g, s'. split; [exact Heq|].
  split_and!; intros i; intros; erewrite Hl by eassumption; reflexivity.
Qed.

(** X2: in a dataset returned by diag, the label of a point is 1 when
    x_1 + x_2 < 0.5 and 0 otherwise; (0.1, 0.1) is labelled 1, (0.4, 0.4)
    is labelled 0, and a point on the diagonal, as (0.25, 0.25), is
    labelled 0. *)
Theorem diag_labels (N : Z) (s : Rng) :
  exists g s', diag random N s = (Ok g, s')
    /\ (forall (i : nat) (x1 x2 : float),
          Graph.X g !! i = Some (x1, x2) ->
          Graph.y g !! i = Some (diag_rule x1 x2))
    /\ (forall i : nat,
          Graph.X g !! i = Some (0.1, 0.1)%float -> Graph.y g !! i = Some 1)
    /\ (forall i : nat,
          Graph.X g !! i = Some (0.4, 0.4)%float -> Graph.y g !! i = Some 0)
    /\ (forall i : nat,
          Graph.X g !! i = Some (0.25, 0.25)%float -> Graph.y g !! i = Some 0).
Proof.
  destruct (labelled_labels random
              (fun x_1 x_2 => if (x_1 + x_2 <? 0.5)%float then 1 else 0) N s)
    as (g & s' & Heq & Hl).
  exists g, s'. split; [exact Heq|].
  split_and!; intros i; intros; erewrite Hl by eassumption; reflexivity.
Qed.

(** X3: in a dataset returned by split, the label of a point is 1 when
    x_1 < 0.2 or x_1 > 0.8 and 0 otherwise, whatever x_2 is; points on the
    two boundaries x_1 = 0.2 and x_1 = 0.8 are labelled 0. *)
Theorem split_labels (N : Z) (s : Rng) :
  exists g s', split random N s = (Ok g, s')
    /\ (forall (i : nat) (x1 x2 : float),
          Graph.X g !! i = Some (x1, x2) ->
          Graph.y g !! i = Some (split_rule x1 x2))
    /\ (forall (i : nat) (x2 : float),
          Graph.X g !! i = Some (0.2, x2)%float -> Graph.y g !! i = Some 0)
    /\ (forall (i : nat) (x2 : float),
          Graph.X g !! i = Some (0.8, x2)%float -> Graph.y g !! i = Some 0).
Proof.
  destruct (labelled_labels random
              (fun x_1 x_2 =>
                 if (x_1 <? 0.2)%float || (0.8 <? x_1)%float then 1 else 0)
              N s)
    as (g & s' & Heq & Hl).
  exists g, s'. split; [exact Heq|].
  split_and!; intros i; intros; erewrite Hl by eassumption; reflexivity.
Qed.

(** X4: in a dataset returned by xor, a point on either midline, x_1 = 0.5
    or x_2 = 0.5, is labelled 0 whatever its other coordinate is. *)
Theorem xor_midlines (N : Z) (s : Rng) :
  exists g s', xor random N s = (Ok g, s')
    /\ (forall (i : nat) (x2 : float),
          Graph.X g !! i = Some (0.5, x2)%float -> Graph.y g !! i = Some 0)
    /\ (forall (i : nat) (x1 : float),
          Graph.X g !! i = Some (x1, 0.5)%float -> Graph.y g !! i = Some 0).
Proof.
  destruct (labelled_labels random
              (fun x_1 x_2 =>
                 if (x_1 <? 0.5)%float && (0.5 <? x_2)%float
                    || (0.5 <? x_1)%float && (x_2 <? 0.5)%float
                 then 1 else 0) N s)
    as (g & s' & Heq & Hl).
  exists g, s'. split; [exact Heq|].
  split; intros i x Hi; rewrite (Hl _ _ _ Hi).
  - reflexivity.
  - change (0.5 <? 0.5)%float with false.
    rewrite andb_false_r, orb_false_l.
    destruct (0.5 <? x)%float; reflexivity.
Qed.

End LabelFacts.

(** ** The sampler and the random source *)

Section SamplerFacts.

Context {Rng : Type}.
Variable random : Rng -> float * Rng.

(** What the loop appends does not depend on what was there before. *)
Lemma make_pts_loop_acc (n : nat) (X : list Point) (s : Rng) :
  make_pts_loop random n X s
  = (X ++ (make_pts_loop random n [] s).1, (make_pts_loop random n [] s).2).
Proof.
  revert X s; induction n as [|n IH]; intros X s; simpl.
  - by rewrite app_nil_r.
  - destruct (random s) as [x_1 s1], (random s1) as [x_2 s2].
    rewrite (IH (X ++ [(x_1, x_2)])), (IH [(x_1, x_2)]). simpl.
    by rewrite <- app_assoc.
Qed.

Lemma make_pts_loop_add (n m : nat) (X : list Point) (s : Rng) :
  make_pts_loop random (n + m) X s
  = make_pts_loop random m (make_pts_loop random n X s).1
      (make_pts_loop random n X s).2.
Proof.
  revert X s; induction n as [|n IH]; intros X s; simpl; [done|].
  destruct (random s) as [x_1 s1], (random s1) as [x_2 s2]. apply IH.
Qed.

Lemma draws_length (n : nat) (s : Rng) : length (draws random n s).1 = n.
Proof.
  revert s; induction n as [|n IH]; intros s; simpl; [done|].
  destruct (random s) as [x s1]. specialize (IH s1).
  destruct (draws random n s1) as [xs s2]. simpl in *. by rewrite IH.
Qed.

Lemma coordinates_cons (p : Point) (X : list Point) :
  coordinates (p :: X) = p.1 :: p.2 :: coordinates X.
Proof. reflexivity. Qed.

Lemma make_pts_loop_draws (n : nat) (s : Rng) :
  coordinates (make_pts_loop random n [] s).1 = (draws random (2 * n) s).1
  /\ (make_pts_loop random n [] s).2 = (draws random (2 * n) s).2.
Proof.
  revert s; induction n as [|n IH]; intros s; [done|].
  replace (2 * S n)%nat with (S (S (2 * n))) by lia.
  assert (IH' := fun s => IH s). clear IH. revert IH'.
  generalize (2 * n)%nat as k. intros k IH. simpl.
  destruct (random s) as [x_1 s1], (random s1) as [x_2 s2].
  rewrite make_pts_loop_acc. destruct (IH s2) as [IHc IHs].
  destruct (draws random k s2) as [xs s3].
  cbn [fst snd app] in *. rewrite coordinates_cons, IHc, IHs. done.
Qed.

(** X5: make_pts draws from the random source exactly 2*N times (not at
    all when N is not positive): the coordinates of its points, read in
    order, are the values drawn, x_1 before x_2, and the source is left in
    the state after these draws. *)
Theorem make_pts_draws (N : Z) (s : Rng) :
  coordinates (make_pts random N s).1
  = (draws random (2 * Z.to_nat N) s).1
  /\ (make_pts random N s).2 = (draws random (2 * Z.to_nat N) s).2
  /\ length (coordinates (make_pts random N s).1) = (2 * Z.to_nat N)%nat.
Proof.
  unfold make_pts.
  destruct (make_pts_loop_draws (Z.to_nat N) s) as [Hc Hs].
  split_and!; [done | done |]. rewrite Hc. apply draws_length.
Qed.

(** X6: sampling N + M points is sampling N points and then M more from
    the state the first sampling left: the lists are concatenated, so the
    first N points of the longer sample are the shorter sample. *)
Theorem make_pts_add (N M : Z) (s : Rng) :
  0 <= N -> 0 <= M ->
  make_pts random (N + M) s
  = ((make_pts random N s).1
     ++ (make_pts random M (make_pts random N s).2).1,
     (make_pts random M (make_pts random N s).2).2)
  /\ take (Z.to_nat N) (make_pts random (N + M) s).1
     = (make_pts random N s).1.
Proof.
  intros HN HM.
  assert (Hadd : make_pts random (N + M) s
    = ((make_pts random N s).1
       ++ (make_pts random M (make_pts random N s).2).1,
       (make_pts random M (make_pts random N s).2).2)).
  { unfold make_pts. rewrite Z2Nat.inj_add by done.
    rewrite make_pts_loop_add. apply make_pts_loop_acc. }
  split; [exact Hadd|]. rewrite Hadd. simpl.
  rewrite take_app_length'; [done|]. symmetry. apply make_pts_length.
Qed.


End SamplerFacts.

(** ** When the spiral generator returns, and what the registry yields *)

Lemma comprehension_raises_at {A B : Type} (f : A -> Result B) (l : list A)
    (a : A) (e : PyExc) :
  a ∈ l -> f a = Raise e -> exists e', comprehension f l = Raise e'.
Proof.
  induction l as [|a' l IH]; intros Ha Hfa; [by apply elem_of_nil in Ha|].
  simpl. destruct (f a') as [b|e1] eqn:Hfa'; simpl; [|by exists e1].
  apply elem_of_cons in Ha as [-> | Ha]; [congruence|].
  destruct (IH Ha Hfa) as [e' ->]. by exists e'.
Qed.

Lemma comprehension_length {A B : Type} (f : A -> Result B) (l : list A)
    (bs : list B) :
  comprehension f l = Ok bs -> length bs = length l.
Proof.
  revert bs; induction l as [|a l IH]; intros bs; simpl.
  - by intros [= <-].
  - destruct (f a) as [b|e]; simpl; [|done].
    destruct (comprehension f l) as [bs'|e]; simpl; [|done].
    intros [= <-]. simpl. by rewrite (IH bs').
Qed.

Section SpiralReturns.

Context {Rng : Type}.
Variable random : Rng -> float * Rng.
Variables cos sin : float -> float.

(** X8: spiral(N) returns its dataset exactly when N//2 <= 0 or
    N//2 + 4 < 2^1024 - 2^970, and raises OverflowError otherwise; it
    leaves the random source as it was either way. *)
Theorem spiral_returns_or_overflows (N : Z) (s : Rng) :
  spiral cos sin N s
  = (if decide (N / 2 <= 0 \/ N / 2 + 4 < float_limit)
     then Ok (spiral_dataset cos sin N)
     else Raise OverflowError, s).
Proof.
  unfold spiral. f_equal. case_decide as Hb.
  - by apply spiral_graph_ok.
  - destruct (Z.le_gt_cases float_limit (N / 2)) as [Hl | Hl].
    + by apply spiral_graph_overflow.
    + pose proof float_limit_gt_9 as H9.
      assert (Hin : float_limit ∈ seqZ 5 (N / 2))
        by (apply elem_of_seqZ; lia).
      assert (Helem : spiral_elem_a cos sin N float_limit
                      = Raise OverflowError).
      { unfold spiral_elem_a. by rewrite py_float_overflow by lia. }
      destruct (comprehension_raises_at _ _ _ _ Hin Helem) as [e He].
      assert (Hraise : spiral_graph cos sin N = Raise e).
      { unfold spiral_graph. rewrite py_range_from_5, He. reflexivity. }
      rewrite Hraise. f_equal. by eapply spiral_graph_raises.
Qed.

(** X9: spiral looks at N only through N // 2: spiral(2k+1) raises when
    spiral(2k) does, and otherwise returns the same points and the same
    labels; only the field N differs. *)
Theorem spiral_ignores_parity (k : Z) (s : Rng) :
  match spiral cos sin (2 * k) s with
  | (Ok g, s') =>
      spiral cos sin (2 * k + 1) s
      = (Ok (Graph.mk (2 * k + 1) (Graph.X g) (Graph.y g)), s')
      /\ Graph.N g = 2 * k
  | (Raise e, s') => spiral cos sin (2 * k + 1) s = (Raise e, s')
  end.
Proof.
  assert (H0 : 2 * k / 2 = k)
    by (symmetry; apply (Z.div_unique _ 2 k 0); lia).
  assert (H1 : (2 * k + 1) / 2 = k)
    by (symmetry; apply (Z.div_unique _ 2 k 1); lia).
  unfold spiral, spiral_graph, spiral_elem_a, spiral_elem_b.
  rewrite H0, H1.
  destruct (comprehension _ (py_range (5 + 0) (5 + k))) as [X|e]; simpl;
    [|done].
  destruct (comprehension _ (py_range (5 + 0) (5 + k))) as [X2|e]; simpl;
    done.
Qed.

Lemma spiral_graph_well_formed (N : Z) (g : Graph.t) :
  spiral_graph cos sin N = Ok g ->
  Graph.N g = N
  /\ length (Graph.X g) = length (Graph.y g)
  /\ Forall (fun l => l = 0 \/ l = 1) (Graph.y g).
Proof.
  unfold spiral_graph.
  destruct (comprehension (spiral_elem_a cos sin N) _) as [X|e] eqn:HA;
    simpl; [|done].
  destruct (comprehension (spiral_elem_b cos sin N) _) as [X2|e] eqn:HB;
    simpl; [|done].
  intros [= <-]. simpl.
  apply comprehension_length in HA, HB.
  rewrite py_range_from_5, length_seqZ in HA, HB.
  split_and!; [done | |].
  - unfold py_repeat. rewrite !length_app, !length_replicate. lia.
  - apply Forall_app. split; apply Forall_replicate; auto.
Qed.

Lemma registry_values (k : string) (gen : generator) :
  py_getitem (datasets random cos sin) k = Ok gen ->
  gen ∈ all_generators random cos sin.
Proof.
  unfold py_getitem, datasets.
  destruct (list_to_map _ !! k) as [gen'|] eqn:Hk; [|done].
  intros [= ->]. apply elem_of_list_to_map_2 in Hk.
  unfold all_generators, uniform_generators.
  repeat (apply elem_of_cons in Hk as [[= _ <-] | Hk];
          [repeat constructor|]).
  by apply elem_of_nil in Hk.
Qed.

(** X10: whatever generator a key of the registry yields and whatever N it
    is called with, negative ones included, a Graph it returns has that N
    in its field N, as many labels as points, and labels that are all 0 or
    1. *)
Theorem registry_results_well_formed (k : string) (gen : generator)
    (N : Z) (s s' : Rng) (g : Graph.t) :
  py_getitem (datasets random cos sin) k = Ok gen ->
  gen N s = (Ok g, s') ->
  Graph.N g = N
  /\ length (Graph.X g) = length (Graph.y g)
  /\ Forall (fun l => l = 0 \/ l = 1) (Graph.y g).
Proof.
  intros Hk Hgen. apply registry_values in Hk.
  unfold all_generators in Hk.
  apply elem_of_app in Hk as [Hk | Hk].
  - destruct (uniform_generator_labelled random gen Hk) as (y1 & -> & Hbin).
    destruct (labelled_shape random y1 N s) as (g0 & s0 & Heq & HN & _ & Hy & _).
    rewrite Heq in Hgen. injection Hgen as <- <-.
    split_and!; [done | by rewrite Hy, length_map |].
    rewrite Hy. apply Forall_forall. intros l Hl.
    apply list_elem_of_fmap in Hl as ([x1 x2] & -> & _). apply Hbin.
  - apply list_elem_of_singleton in Hk as ->.
    unfold spiral in Hgen. injection Hgen as Hg _.
    by apply spiral_graph_well_formed.
Qed.

End SpiralReturns.

Lemma make_pts_add_witness :
  0 <= 1 /\ 0 <= 2
  /\ make_pts tape_random (1 + 2) [0.1; 0.2; 0.3; 0.4; 0.5; 0.6; 0.7]%float
     = ((make_pts tape_random 1
           [0.1; 0.2; 0.3; 0.4; 0.5; 0.6; 0.7]%float).1
        ++ (make_pts tape_random 2 [0.3; 0.4; 0.5; 0.6; 0.7]%float).1,
        [0.7]%float).
Proof.
  split; [lia|]. split; [lia|].
  apply (proj1 (make_pts_add tape_random 1 2
                  [0.1; 0.2; 0.3; 0.4; 0.5; 0.6; 0.7]%float
                  ltac:(lia) ltac:(lia))).
Defined.


Lemma registry_results_well_formed_witness :
  py_getitem (datasets tape_random probe_cos probe_sin) "Spiral"
  = Ok (spiral probe_cos probe_sin)
  /\ Graph.N (spiral_dataset probe_cos probe_sin 5) = 5
  /\ length (Graph.X (spiral_dataset probe_cos probe_sin 5))
     = length (Graph.y (spiral_dataset probe_cos probe_sin 5))
  /\ Forall (fun l => l = 0 \/ l = 1)
       (Graph.y (spiral_dataset probe_cos probe_sin 5)).
Proof.
  split; [reflexivity|].
  apply (registry_results_well_formed tape_random probe_cos probe_sin
           "Spiral" (spiral probe_cos probe_sin) 5 [] []).
  - reflexivity.
  - unfold spiral. rewrite spiral_graph_ok; [reflexivity|].
    right. by_computation.
Defined.
